(** * FinSTATA: the CUSIP cleaner ([helpers/cusip_cleaner.py])

    A shallow embedding of [clean_cusip] and [clean_cusip_file], and the
    properties of the identifier normaliser and of the filtering step that
    consumes it.

    Python strings are sequences of Unicode code points.  The ASCII part of
    the built-ins the cleaner calls ([str.strip], [str.upper], [re.sub],
    [str]) is written out; what they do on code points from U+0080 on comes
    from the interpreter's Unicode tables, which are not part of the
    repository and enter as a parameter ([unicode_db]). *)

From Stdlib Require Import Ascii String DecimalString Relations SpecFloat.
From stdpp Require Import base numbers list option gmap.

Open Scope N_scope.

(** ** Python strings *)

Definition codepoint := N.
Definition pystr := list codepoint.

(** A string literal of the source, as code points. *)
Fixpoint lit (s : string) : pystr :=
  match s with
  | EmptyString => []
  | String a s' => N_of_ascii a :: lit s'
  end.

(** What the interpreter's Unicode tables say about the code points from
    U+0080 on: which are white space, and the full upper-case mapping (one
    code point may map to several, as U+00DF does). *)
Record unicode_db := UnicodeDb {
  uc_isspace : codepoint -> bool;
  uc_toupper : codepoint -> pystr
}.

(** The tables of CPython on Latin-1 (U+0080 to U+00FF); code points
    beyond are left alone, as capitals such as U+1E9E and U+212A are by
    [str.upper].  Used where a concrete table is needed. *)
Definition latin1_db : unicode_db :=
  {| uc_isspace c := (c =? 133) || (c =? 160);
     uc_toupper c :=
       if c =? 181 then [924]
       else if c =? 223 then [83; 83]
       else if c =? 255 then [376]
       else if (224 <=? c) && (c <=? 254) && negb (c =? 247) then [c - 32]
       else [c] |}.

Definition is_ascii (c : codepoint) : bool := c <? 128.

(** ASCII white space: TAB, LF, VT, FF, CR, FS, GS, RS, US and space. *)
Definition ascii_isspace (c : codepoint) : bool :=
  ((9 <=? c) && (c <=? 13)) || ((28 <=? c) && (c <=? 31)) || (c =? 32).

Definition ascii_toupper (c : codepoint) : codepoint :=
  if (97 <=? c) && (c <=? 122) then c - 32 else c.

(** The character class [A-Z0-9] of line 17. *)
Definition in_A_Z0_9 (c : codepoint) : bool :=
  ((65 <=? c) && (c <=? 90)) || ((48 <=? c) && (c <=? 57)).

(** A canonical identifier: a match of [[A-Z0-9]{8}]. *)
Definition is_canonical (s : pystr) : bool :=
  (length s =? 8)%nat && forallb in_A_Z0_9 s.

Section Builtins.
Variable db : unicode_db.

Definition py_isspace (c : codepoint) : bool :=
  if is_ascii c then ascii_isspace c else uc_isspace db c.

Definition py_toupper (c : codepoint) : pystr :=
  if is_ascii c then [ascii_toupper c] else uc_toupper db c.

(** [str.lstrip()], [str.rstrip()], [str.strip()] without argument. *)
Fixpoint lstrip (s : pystr) : pystr :=
  match s with
  | [] => []
  | c :: s' => if py_isspace c then lstrip s' else s
  end.

Definition rstrip (s : pystr) : pystr := reverse (lstrip (reverse s)).

Definition strip (s : pystr) : pystr := rstrip (lstrip s).

(** [str.upper()]: the full upper-case mapping, character by character. *)
Definition upper (s : pystr) : pystr := concat (map py_toupper s).

(** [re.sub(r'[^A-Z0-9]', '', s)]: every character outside the class is
    replaced by the empty string. *)
Definition re_sub_not_A_Z0_9 (s : pystr) : pystr := List.filter in_A_Z0_9 s.
End Builtins.

(** [str(n)] for an [int]. *)
Definition str_of_int (n : Z) : pystr := lit (NilZero.string_of_int (Z.to_int n)).

(** ** Values a cell of the [cusip] column can hold

    [pd.read_csv] yields strings, integers, floats and booleans, and a
    float NaN for a missing cell; [None] is what [clean_cusip] itself
    returns for "no identifier". *)
Inductive pyval :=
| PyNone
| PyStr (s : pystr)
| PyInt (n : Z)
| PyBool (b : bool)
| PyFloat (f : spec_float).

#[global] Instance spec_float_eq_dec : EqDecision spec_float.
Proof. solve_decision. Defined.
#[global] Instance pyval_eq_dec : EqDecision pyval.
Proof. solve_decision. Defined.
#[global] Instance pyval_inhabited : Inhabited pyval := populate PyNone.

(** [pd.isna] on a scalar. *)
Definition pd_isna (v : pyval) : bool :=
  match v with
  | PyNone | PyFloat S754_nan => true
  | _ => false
  end.

(** [v == ''] *)
Definition eq_empty_str (v : pyval) : bool :=
  match v with
  | PyStr [] => true
  | _ => false
  end.

(** What a function returning [None] or a string returns, as a value. *)
Definition of_option (o : option pystr) : pyval :=
  match o with
  | None => PyNone
  | Some s => PyStr s
  end.

Section Cleaner.
Variable db : unicode_db.
(** [repr] of a float (the shortest decimal text that reads back as the
    same float); not part of the repository. *)
Variable float_repr : spec_float -> pystr.

(** [str(v)] *)
Definition py_str (v : pyval) : pystr :=
  match v with
  | PyNone => lit "None"
  | PyStr s => s
  | PyInt n => str_of_int n
  | PyBool true => lit "True"
  | PyBool false => lit "False"
  | PyFloat f => float_repr f
  end.

(** Lines 16 and 17 of [clean_cusip]: the cleaned form of a string. *)
Definition cleaned (s : pystr) : pystr :=
  re_sub_not_A_Z0_9 (upper db (strip db s)).

(** What line 17 leaves of the upper-case form of a string that has not
    been stripped. *)
Definition kept (s : pystr) : pystr := re_sub_not_A_Z0_9 (upper db s).

(** [clean_cusip], lines 11 to 33. *)
Definition clean_cusip (cusip_str : pyval) : option pystr :=
  if pd_isna cusip_str || eq_empty_str cusip_str then None
  else
    let cusip_str := upper db (strip db (py_str cusip_str)) in
    let cusip_str := re_sub_not_A_Z0_9 cusip_str in
    if (length cusip_str <? 6)%nat then None
    else
      let cusip_str :=
        if (length cusip_str =? 6)%nat then cusip_str ++ lit "00"
        else if (length cusip_str =? 7)%nat then cusip_str ++ lit "0"
        else if (length cusip_str =? 8)%nat then cusip_str
        else if (length cusip_str =? 9)%nat then take 8 cusip_str
        else take 8 cusip_str in
      Some cusip_str.
End Cleaner.

(** ** Strings that differ only in what the cleaner ignores

    One edit replaces one character by one that is the same letter in
    another case ([same_letter]), adds one white-space character in front
    or at the end, or adds, strictly inside the string, one character of a
    given class [ignorable].  Two strings differ only by such things when
    edits, done or undone, lead from one to the other. *)
Section Variants.
Variable db : unicode_db.
Variable same_letter : codepoint -> codepoint -> Prop.
Variable ignorable : codepoint -> bool.

Inductive edit : pystr -> pystr -> Prop :=
| edit_case a c c' b :
    same_letter c c' -> edit (a ++ c :: b) (a ++ c' :: b)
| edit_leading w s :
    py_isspace db w = true -> edit s (w :: s)
| edit_trailing w s :
    py_isspace db w = true -> edit s (s ++ [w])
| edit_interior a c b :
    a <> [] -> b <> [] -> ignorable c = true -> edit (a ++ b) (a ++ c :: b).

Definition differ_only : pystr -> pystr -> Prop := rtc (sc edit).
End Variants.

(** Two characters with the same upper-case form under [str.upper]. *)
Definition same_upper (db : unicode_db) (c c' : codepoint) : Prop :=
  py_toupper db c = py_toupper db c'.

Definition ascii_tolower (c : codepoint) : codepoint :=
  if (65 <=? c) && (c <=? 90) then c + 32 else c.

(** [str.lower] on one character; [lower] is the table of the interpreter
    for the code points from U+0080 on. *)
Definition py_tolower (lower : codepoint -> pystr) (c : codepoint) : pystr :=
  if is_ascii c then [ascii_tolower c] else lower c.

(** Two characters that differ by case only: [str.upper] or [str.lower]
    makes them equal. *)
Definition case_variants (db : unicode_db) (lower : codepoint -> pystr)
    (c c' : codepoint) : Prop :=
  py_toupper db c = py_toupper db c' \/ py_tolower lower c = py_tolower lower c'.

(** [str.lower] of CPython on the capital sharp s (U+1E9E, to U+00DF) and
    on the Kelvin sign (U+212A, to [k]); other code points are left
    alone. *)
Definition capitals_lower (c : codepoint) : pystr :=
  if c =? 7838 then [223] else if c =? 8490 then [107] else [c].

(** The ASCII characters other than letters and digits: punctuation,
    symbols, space and control characters. *)
Definition ascii_other (c : codepoint) : bool :=
  is_ascii c && negb (in_A_Z0_9 (ascii_toupper c)).

(** The characters outside A-Z and 0-9. *)
Definition outside_class (c : codepoint) : bool := negb (in_A_Z0_9 c).

(** The characters whose upper-case form has nothing in A-Z or 0-9: of the
    ASCII characters, all but the letters and the digits. *)
Definition vanishes (db : unicode_db) (c : codepoint) : bool :=
  forallb outside_class (py_toupper db c).

(** ** The data frame of [clean_cusip_file]

    A frame is its column names, in order, and its rows; a row carries its
    index label and maps column names to cell values. *)
Record DataFrame := Frame {
  columns : list pystr;
  rows : list (nat * gmap pystr pyval)
}.

Definition cell (r : nat * gmap pystr pyval) (col : pystr) : pyval :=
  r.2 !!! col.

(** [df[col].apply(f)]: the series of the results, under the labels of the
    frame. *)
Definition series_apply (f : pyval -> pyval) (col : pystr) (df : DataFrame)
  : list (nat * pyval) :=
  map (fun r => (r.1, f (cell r col))) (rows df).

(** [df[col] = series], for a series computed from [df] itself (same
    labels, same order): the column is overwritten where it stands, or
    added as the last one. *)
Definition set_column (col : pystr) (series : list (nat * pyval)) (df : DataFrame)
  : DataFrame :=
  {| columns := if bool_decide (col ∈ columns df) then columns df
                else columns df ++ [col];
     rows := zip_with (fun r v => (r.1, <[col := v.2]> r.2)) (rows df) series |}.

(** [df.dropna(subset=cols)]: the rows with a missing value in one of the
    columns go. *)
Definition dropna (subset : list pystr) (df : DataFrame) : DataFrame :=
  {| columns := columns df;
     rows := List.filter (fun r => forallb (fun c => negb (pd_isna (cell r c))) subset)
               (rows df) |}.

(** The first row of each group of rows that agree on [subset] stays. *)
Fixpoint keep_first (subset : list pystr) (seen : list (list pyval))
    (rs : list (nat * gmap pystr pyval)) : list (nat * gmap pystr pyval) :=
  match rs with
  | [] => []
  | r :: rs' =>
      let k := map (cell r) subset in
      if bool_decide (k ∈ seen) then keep_first subset seen rs'
      else r :: keep_first subset (k :: seen) rs'
  end.

(** [df.drop_duplicates(subset=cols)], with its default [keep='first']. *)
Definition drop_duplicates (subset : list pystr) (df : DataFrame) : DataFrame :=
  {| columns := columns df; rows := keep_first subset [] (rows df) |}.

(** The test of [dropna] on the column [cusip_clean]. *)
Definition has_cusip_clean (r : nat * gmap pystr pyval) : bool :=
  forallb (fun c => negb (pd_isna (cell r c))) [lit "cusip_clean"].




(** ** Files, output and exceptions

    [pd.read_csv] and [DataFrame.to_csv] are the library's: they enter as
    parameters over a file system that is left abstract.  So does the
    encoding of the standard output: [print] raises [UnicodeEncodeError]
    on a line the output cannot encode.  An exception is represented by
    its text, which is all the handler of line 54 uses. *)
Inductive result (A : Type) :=
| Ok (a : A)
| Raise (e : pystr).
Arguments Ok {A} a.
Arguments Raise {A} e.

Record pandas_io := PandasIO {
  filesystem : Type;
  read_csv : pystr -> filesystem -> result DataFrame;
  to_csv : DataFrame -> pystr -> filesystem -> result unit * filesystem;
  (** whether the standard output can encode a line that is not ASCII,
      and the text of the exception when it cannot *)
  stdout_encodes : pystr -> bool;
  encode_error : pystr -> pystr
}.

(** A line of ASCII characters is encoded by every encoding the standard
    output can have. *)
Definition printable (io : pandas_io) (line : pystr) : bool :=
  forallb is_ascii line || stdout_encodes io line.

Record world (io : pandas_io) := World {
  files : filesystem io;
  stdout : list pystr
}.
Arguments World {io} files stdout.
Arguments files {io} w.
Arguments stdout {io} w.

(** Computations that read and write the world and may raise. *)
Definition M (io : pandas_io) (A : Type) : Type := world io -> result A * world io.

#[global] Instance M_ret io : MRet (M io) := fun A a w => (Ok a, w).
#[global] Instance M_bind io : MBind (M io) := fun A B k m w =>
  match m w with
  | (Ok a, w') => k a w'
  | (Raise e, w') => (Raise e, w')
  end.

(** [print(line)]: the line is encoded whole before any of it is written. *)
Definition print {io} (line : pystr) : M io unit :=
  fun w =>
    if printable io line
    then (Ok (), {| files := files w; stdout := stdout w ++ [line] |})
    else (Raise (encode_error io line), w).

Definition do_read_csv {io} (path : pystr) : M io DataFrame :=
  fun w => (read_csv io path (files w), w).

Definition do_to_csv {io} (df : DataFrame) (path : pystr) : M io unit :=
  fun w => let '(r, fs) := to_csv io df path (files w) in
           (r, {| files := fs; stdout := stdout w |}).

(** [try: body except Exception as e: handler(e)] *)
Definition try_except {io A} (body : M io A) (handler : pystr -> M io A) : M io A :=
  fun w => match body w with
           | (Ok a, w') => (Ok a, w')
           | (Raise e, w') => handler e w'
           end.

Section File.
Variable db : unicode_db.
Variable float_repr : spec_float -> pystr.
Variable io : pandas_io.

(** Lines 41 to 43: the filtering step. *)
Definition clean_frame (df : DataFrame) : DataFrame :=
  let df := set_column (lit "cusip_clean")
              (series_apply (fun v => of_option (clean_cusip db float_repr v))
                 (lit "cusip") df) df in
  let df := dropna [lit "cusip_clean"] df in
  let df := drop_duplicates [lit "cusip_clean"] df in
  df.

(** The canonical identifier of a row, and the row with it in the column
    [cusip_clean]. *)
Definition canonical_of (r : nat * gmap pystr pyval) : option pystr :=
  clean_cusip db float_repr (cell r (lit "cusip")).

Definition with_cusip_clean (r : nat * gmap pystr pyval) : nat * gmap pystr pyval :=
  (r.1, <[lit "cusip_clean" := of_option (canonical_of r)]> r.2).

(** [clean_cusip_file], lines 35 to 56.  The [return False] of line 48
    leaves the function before line 50 is reached. *)
Definition clean_cusip_file (input_file output_file : pystr) : M io bool :=
  try_except
    (df ← do_read_csv input_file;
     if bool_decide (lit "cusip" ∈ columns df) then
       let df := clean_frame df in
       _ ← print (lit "Processed " ++ str_of_int (Z.of_nat (length (rows df)))
                    ++ lit " records with clean CUSIPs");
       _ ← do_to_csv df output_file;
       _ ← print (lit "Clean CUSIP file saved to: " ++ output_file);
       mret true
     else
       _ ← print (lit "No 'cusip' column found in input file");
       mret false)
    (fun e =>
       _ ← print (lit "Error processing CUSIP file: " ++ e);
       mret false).

(** The script, lines 58 to 68, run with [sys.argv = argv]: the exit status
    and the world it leaves.  [sys.exit(1)] ends it with status 1, falling
    off the end with status 0; an exception that nothing catches would end
    it with status 1. *)
Definition main (argv : list pystr) (w : world io) : Z * world io :=
  if bool_decide (length argv <> 3%nat) then
    (1%Z, (print (lit "Usage: python cusip_cleaner.py <input_file> <output_file>") w).2)
  else
    let input_file := argv !!! 1%nat in
    let output_file := argv !!! 2%nat in
    match clean_cusip_file input_file output_file w with
    | (Ok success, w') => if negb success then (1%Z, w') else (0%Z, w')
    | (Raise _, w') => (1%Z, w')
    end.
End File.

(** ** Concrete parameters, for the examples *)

(** Floats are not used by the examples. *)
Definition no_float_repr : spec_float -> pystr := fun _ => [].

(** The standard output in UTF-8: every line is encoded but those with a
    surrogate (U+D800 to U+DFFF). *)
Definition utf8_encodes (line : pystr) : bool :=
  forallb (fun c => negb ((55296 <=? c) && (c <=? 57343))) line.

Definition utf8_error (line : pystr) : pystr :=
  lit "'utf-8' codec can't encode character: surrogates not allowed".

(** Files that hold frames: reading looks the path up, writing stores the
    frame under the path. *)
Definition mem_io : pandas_io :=
  {| filesystem := gmap pystr DataFrame;
     read_csv path fs :=
       match fs !! path with
       | Some df => Ok df
       | None => Raise (lit "No such file or directory")
       end;
     to_csv df path fs := (Ok (), <[path := df]> fs);
     stdout_encodes := utf8_encodes;
     encode_error := utf8_error |}.


Definition frame_of_cusips (ids : list pyval) : DataFrame :=
  {| columns := [lit "cusip"];
     rows := imap (fun i v => (i, {[ lit "cusip" := v ]})) ids |}.



(** * Properties *)

(** ** The built-ins *)

(** Case analysis on the comparisons of code points in sight. *)
Ltac cmp_cases :=
  repeat match goal with
    | H : context [N.leb ?a ?b] |- _ => destruct (N.leb_spec a b)
    | |- context [N.leb ?a ?b] => destruct (N.leb_spec a b)
    | H : context [N.ltb ?a ?b] |- _ => destruct (N.ltb_spec a b)
    | |- context [N.ltb ?a ?b] => destruct (N.ltb_spec a b)
    | H : context [N.eqb ?a ?b] |- _ => destruct (N.eqb_spec a b)
    | |- context [N.eqb ?a ?b] => destruct (N.eqb_spec a b)
    end;
  simpl in *; try done; try lia.

Lemma re_sub_in_class s : forallb in_A_Z0_9 (re_sub_not_A_Z0_9 s) = true.
Proof.
  induction s as [|c s IH]; simpl; [done|].
  destruct (in_A_Z0_9 c) eqn:E; simpl; [by rewrite E|done].
Qed.

Lemma re_sub_app s t :
  re_sub_not_A_Z0_9 (s ++ t) = re_sub_not_A_Z0_9 s ++ re_sub_not_A_Z0_9 t.
Proof. apply List.filter_app. Qed.

Lemma re_sub_id s : forallb in_A_Z0_9 s = true -> re_sub_not_A_Z0_9 s = s.
Proof.
  induction s as [|c s IH]; simpl; [done|].
  intros [Hc Hs]%andb_prop. rewrite Hc. by rewrite IH.
Qed.

Lemma in_class_ascii c : in_A_Z0_9 c = true -> is_ascii c = true.
Proof. unfold in_A_Z0_9, is_ascii. cmp_cases. Qed.

Lemma in_class_not_space db c : in_A_Z0_9 c = true -> py_isspace db c = false.
Proof.
  intros H. unfold py_isspace. rewrite (in_class_ascii _ H).
  unfold in_A_Z0_9 in H. unfold ascii_isspace. cmp_cases.
Qed.

Lemma in_class_toupper db c : in_A_Z0_9 c = true -> py_toupper db c = [c].
Proof.
  intros H. unfold py_toupper. rewrite (in_class_ascii _ H).
  unfold in_A_Z0_9 in H. unfold ascii_toupper. cmp_cases.
Qed.

Lemma lstrip_no_space db s :
  forallb (fun c => negb (py_isspace db c)) s = true -> lstrip db s = s.
Proof.
  destruct s as [|c s]; simpl; [done|].
  intros [Hc _]%andb_prop. by destruct (py_isspace db c).
Qed.

Lemma forallb_reverse {A} (p : A -> bool) l :
  forallb p (reverse l) = forallb p l.
Proof.
  induction l as [|x l IH]; [done|].
  rewrite reverse_cons, forallb_app, IH. simpl. destruct (p x), (forallb p l); done.
Qed.

Lemma strip_no_space db s :
  forallb (fun c => negb (py_isspace db c)) s = true -> strip db s = s.
Proof.
  intros H. unfold strip, rstrip. rewrite (lstrip_no_space _ _ H).
  rewrite lstrip_no_space by by rewrite forallb_reverse.
  apply reverse_involutive.
Qed.

Lemma forallb_impl {A} (p q : A -> bool) l :
  (forall x, p x = true -> q x = true) -> forallb p l = true -> forallb q l = true.
Proof.
  intros Hpq. induction l as [|x l IH]; simpl; [done|].
  intros [Hx Hl]%andb_prop. by rewrite (Hpq _ Hx), IH.
Qed.

Lemma strip_in_class db s : forallb in_A_Z0_9 s = true -> strip db s = s.
Proof.
  intros H. apply strip_no_space. revert H. apply forallb_impl.
  intros c Hc. by rewrite (in_class_not_space _ _ Hc).
Qed.

Lemma upper_in_class db s : forallb in_A_Z0_9 s = true -> upper db s = s.
Proof.
  unfold upper. induction s as [|c s IH]; simpl; [done|].
  intros [Hc Hs]%andb_prop. by rewrite (in_class_toupper _ _ Hc), IH.
Qed.

Lemma cleaned_in_class db s : forallb in_A_Z0_9 s = true -> cleaned db s = s.
Proof.
  intros H. unfold cleaned.
  by rewrite (strip_in_class _ _ H), (upper_in_class _ _ H), (re_sub_id _ H).
Qed.

Lemma cleaned_class db s : forallb in_A_Z0_9 (cleaned db s) = true.
Proof. apply re_sub_in_class. Qed.

Lemma forallb_take {A} (p : A -> bool) n l :
  forallb p l = true -> forallb p (take n l) = true.
Proof.
  revert n. induction l as [|x l IH]; intros [|n]; simpl; try done.
  intros [Hx Hl]%andb_prop. by rewrite Hx, IH.
Qed.

(** ** [clean_cusip] *)

Section CleanerFacts.
Variable db : unicode_db.
Variable float_repr : spec_float -> pystr.

(** [clean_cusip] on a string, in terms of its cleaned form. *)
Lemma clean_cusip_str s :
  clean_cusip db float_repr (PyStr s) =
    if (length (cleaned db s) <? 6)%nat then None
    else Some (if (length (cleaned db s) =? 6)%nat then cleaned db s ++ lit "00"
               else if (length (cleaned db s) =? 7)%nat then cleaned db s ++ lit "0"
               else if (length (cleaned db s) =? 8)%nat then cleaned db s
               else take 8 (cleaned db s)).
Proof.
  destruct s as [|c s]; [done|].
  unfold clean_cusip, cleaned. cbn [pd_isna eq_empty_str orb py_str].
  repeat case_match; done.
Qed.

(** On any value that passes line 13, [clean_cusip] is its action on the
    string form of the value. *)
Lemma clean_cusip_via_str x :
  pd_isna x = false -> eq_empty_str x = false ->
  clean_cusip db float_repr x = clean_cusip db float_repr (PyStr (py_str float_repr x)).
Proof.
  intros Hna Hne. rewrite clean_cusip_str.
  unfold clean_cusip, cleaned. rewrite Hna, Hne. cbn [orb].
  repeat case_match; done.
Qed.

Lemma clean_cusip_result x r :
  clean_cusip db float_repr x = Some r -> is_canonical r = true.
Proof.
  unfold clean_cusip.
  destruct (pd_isna x || eq_empty_str x); [done|].
  set (c := re_sub_not_A_Z0_9 _).
  assert (Hc : forallb in_A_Z0_9 c = true) by apply re_sub_in_class.
  unfold is_canonical.
  destruct (Nat.ltb_spec (length c) 6); [done|].
  intros [= <-].
  assert (Hlen : forall n, (length c =? n)%nat = true -> length c = n)
    by (intros n; apply Nat.eqb_eq).
  assert (Hneq : forall n, (length c =? n)%nat = false -> length c <> n)
    by (intros n; apply Nat.eqb_neq).
  apply andb_true_intro.
  repeat case_match;
    rewrite ?forallb_app, ?length_app, ?length_take, ?Hc, ?Nat.eqb_eq;
    repeat match goal with
      | E : (length c =? _)%nat = true |- _ => apply Hlen in E
      | E : (length c =? _)%nat = false |- _ => apply Hneq in E
      end;
    (split; [cbn [length lit]; lia | auto using forallb_take]).
Qed.

(** C1. [clean_cusip] is total on the values a cell can hold (it has a
    result for each of them, none raises), and the result is either
    [None] or a string of exactly 8 characters, all of them in A-Z or
    0-9. *)
Theorem clean_cusip_none_or_canonical (x : pyval) :
  clean_cusip db float_repr x = None \/
  exists r, clean_cusip db float_repr x = Some r /\ length r = 8%nat /\
            Forall (fun c => in_A_Z0_9 c = true) r.
Proof.
  destruct (clean_cusip db float_repr x) as [r|] eqn:E; [right|by left].
  exists r. split; [done|].
  apply clean_cusip_result in E. unfold is_canonical in E.
  apply andb_prop in E as [Hl Hc]. split.
  - by apply Nat.eqb_eq.
  - apply Forall_forall. intros c Hin.
    rewrite forallb_forall in Hc. apply Hc. by apply list_elem_of_In.
Qed.

(** C2. When the cleaned form of a raw string has length 6, 7 or 8, the
    result has length 8, begins with the cleaned form, and is the
    cleaned form followed by as many ['0'] as are missing to 8 (two, one,
    none). *)
Theorem clean_cusip_pads (s : pystr) :
  (6 <= length (cleaned db s) <= 8)%nat ->
  exists r, clean_cusip db float_repr (PyStr s) = Some r /\ length r = 8%nat /\
            take (length (cleaned db s)) r = cleaned db s /\
            r = cleaned db s ++ replicate (8 - length (cleaned db s)) 48.
Proof.
  intros Hlen. rewrite clean_cusip_str.
  set (c := cleaned db s) in *.
  destruct (Nat.ltb_spec (length c) 6); [lia|].
  eexists; split; [reflexivity|].
  destruct (Nat.eqb_spec (length c) 6) as [E|?];
    [|destruct (Nat.eqb_spec (length c) 7) as [E|?]];
    [| |destruct (Nat.eqb_spec (length c) 8) as [E|?]; [|lia]].
  - rewrite length_app, take_app_length, E. done.
  - rewrite length_app, take_app_length, E. done.
  - rewrite take_ge, E by lia. by rewrite app_nil_r.
Qed.

(** C3. When the cleaned form of a raw string is shorter than 6, the
    result is [None]. *)
Theorem clean_cusip_too_short (s : pystr) :
  (length (cleaned db s) < 6)%nat -> clean_cusip db float_repr (PyStr s) = None.
Proof.
  intros Hlen. rewrite clean_cusip_str.
  by destruct (Nat.ltb_spec (length (cleaned db s)) 6); [|lia].
Qed.

(** C4. When the cleaned form of a raw string has length 9 or more, the
    result is the first 8 characters of the cleaned form: the branch for
    length 9 (line 29) and the branch for the longer ones (line 31) give
    the same. *)
Theorem clean_cusip_truncates (s : pystr) :
  (9 <= length (cleaned db s))%nat ->
  clean_cusip db float_repr (PyStr s) = Some (take 8 (cleaned db s)).
Proof.
  intros Hlen. rewrite clean_cusip_str.
  destruct (Nat.ltb_spec (length (cleaned db s)) 6); [lia|].
  destruct (Nat.eqb_spec (length (cleaned db s)) 6); [lia|].
  destruct (Nat.eqb_spec (length (cleaned db s)) 7); [lia|].
  destruct (Nat.eqb_spec (length (cleaned db s)) 8); [lia|done].
Qed.

(** C7. Idempotence: a result of [clean_cusip] other than [None] is
    returned unchanged when cleaned again. *)
Theorem clean_cusip_idempotent (x : pyval) (r : pystr) :
  clean_cusip db float_repr x = Some r -> clean_cusip db float_repr (PyStr r) = Some r.
Proof.
  intros H. apply clean_cusip_result in H. unfold is_canonical in H.
  apply andb_prop in H as [Hl%Nat.eqb_eq Hc].
  rewrite clean_cusip_str, (cleaned_in_class _ _ Hc), Hl. done.
Qed.

(** C10. A value that is neither missing nor the empty string is cleaned
    as its string form is: [clean_cusip(x) = clean_cusip(str(x))]. *)
Theorem clean_cusip_of_str (x : pyval) :
  pd_isna x = false -> x <> PyStr [] ->
  clean_cusip db float_repr x = clean_cusip db float_repr (PyStr (py_str float_repr x)).
Proof.
  intros Hna Hne. apply clean_cusip_via_str; [done|].
  destruct x as [|[|]| | |]; done.
Qed.
End CleanerFacts.

(** ** Insensitivity to case, white space and punctuation *)

Section Insensitivity.
Variable db : unicode_db.
Variable float_repr : spec_float -> pystr.

(** White space has no letter or digit in its upper-case form (in
    Unicode it has no case mapping at all). *)
Hypothesis space_vanishes :
  forall c, py_isspace db c = true -> vanishes db c = true.

Lemma kept_app s t : kept db (s ++ t) = kept db s ++ kept db t.
Proof. unfold kept, upper. by rewrite map_app, concat_app, re_sub_app. Qed.

Lemma kept_cons c s : kept db (c :: s) = re_sub_not_A_Z0_9 (py_toupper db c) ++ kept db s.
Proof. unfold kept, upper. simpl. by rewrite re_sub_app. Qed.

Lemma vanishes_kept c :
  vanishes db c = true -> re_sub_not_A_Z0_9 (py_toupper db c) = [].
Proof.
  unfold vanishes, outside_class. induction (py_toupper db c) as [|u l IH]; simpl; [done|].
  intros [Hu Hl]%andb_prop. destruct (in_A_Z0_9 u); [done|]. by apply IH.
Qed.

Lemma kept_spaces ws : forallb (py_isspace db) ws = true -> kept db ws = [].
Proof.
  induction ws as [|w ws IH]; simpl; [done|].
  intros [Hw Hws]%andb_prop.
  by rewrite kept_cons, (vanishes_kept _ (space_vanishes _ Hw)), IH.
Qed.

Lemma lstrip_split s :
  exists ws, s = ws ++ lstrip db s /\ forallb (py_isspace db) ws = true.
Proof.
  induction s as [|c s (ws & Hs & Hws)]; [by exists []|].
  simpl. destruct (py_isspace db c) eqn:E.
  - exists (c :: ws). simpl. rewrite E, Hws. split; [by f_equal|done].
  - by exists [].
Qed.

Lemma rstrip_split s :
  exists ws, s = rstrip db s ++ ws /\ forallb (py_isspace db) ws = true.
Proof.
  destruct (lstrip_split (reverse s)) as (ws & Hs & Hws).
  exists (reverse ws). split; [|by rewrite forallb_reverse].
  unfold rstrip. rewrite <- reverse_app, <- Hs. by rewrite reverse_involutive.
Qed.

Lemma kept_strip s : kept db (strip db s) = kept db s.
Proof.
  unfold strip.
  destruct (lstrip_split s) as (ws & Hs & Hws).
  destruct (rstrip_split (lstrip db s)) as (ws' & Hs' & Hws').
  rewrite Hs at 2. rewrite Hs' at 2.
  by rewrite !kept_app, (kept_spaces _ Hws), (kept_spaces _ Hws'), app_nil_r.
Qed.

Lemma cleaned_kept s : cleaned db s = kept db s.
Proof. apply kept_strip. Qed.

Lemma edit_kept s s' :
  edit db (same_upper db) (vanishes db) s s' -> kept db s = kept db s'.
Proof.
  intros [a c c' b Hc|w t Hw|w t Hw|a c b _ _ Hc].
  - unfold same_upper in Hc. rewrite !kept_app, !kept_cons. by rewrite Hc.
  - by rewrite kept_cons, (vanishes_kept _ (space_vanishes _ Hw)).
  - rewrite kept_app, kept_cons, (vanishes_kept _ (space_vanishes _ Hw)).
    by rewrite app_nil_r.
  - by rewrite !kept_app, kept_cons, (vanishes_kept _ Hc).
Qed.

Lemma differ_only_kept s s' :
  differ_only db (same_upper db) (vanishes db) s s' -> kept db s = kept db s'.
Proof.
  induction 1 as [|s t u [Hst|Hts] _ IH]; [done| |].
  - by rewrite (edit_kept _ _ Hst).
  - by rewrite <- (edit_kept _ _ Hts).
Qed.

(** C8, as amended.  Two raw strings that differ only by characters
    replaced by characters with the same upper-case form (as the two
    cases of an ASCII letter have), by leading or trailing white space,
    or by interior characters whose upper-case form has nothing in A-Z or
    0-9 (such as any ASCII character that is neither a letter nor a
    digit) have the same result. *)
Theorem clean_cusip_insensitive (s s' : pystr) :
  differ_only db (same_upper db) (vanishes db) s s' ->
  clean_cusip db float_repr (PyStr s) = clean_cusip db float_repr (PyStr s').
Proof.
  intros H. rewrite !clean_cusip_str, !cleaned_kept.
  by rewrite (differ_only_kept _ _ H).
Qed.
End Insensitivity.

Lemma latin1_space_vanishes c :
  py_isspace latin1_db c = true -> vanishes latin1_db c = true.
Proof.
  unfold py_isspace, vanishes, py_toupper, is_ascii.
  destruct (N.ltb_spec c 128).
  - unfold ascii_isspace, ascii_toupper, outside_class, in_A_Z0_9. simpl. cmp_cases.
  - simpl. intros [->%N.eqb_eq| ->%N.eqb_eq]%orb_prop; done.
Qed.

(** The two cases of an ASCII letter have the same upper-case form, and
    the ASCII characters other than letters and digits are among those
    that leave nothing after line 17. *)
Lemma ascii_case_same_upper db c :
  (97 <= c <= 122) -> same_upper db c (c - 32).
Proof.
  intros Hc. unfold same_upper, py_toupper, is_ascii, ascii_toupper. cmp_cases.
Qed.

Lemma ascii_other_vanishes db c : ascii_other c = true -> vanishes db c = true.
Proof.
  unfold ascii_other, vanishes, py_toupper, outside_class.
  intros [-> H]%andb_prop. simpl. by rewrite H.
Qed.

(** C8 (witness). ["ab1234 0"] and [" AB12340"] differ by the case of two
    letters, an interior space and a leading space. *)
Lemma clean_cusip_insensitive_witness :
  (forall c, py_isspace latin1_db c = true -> vanishes latin1_db c = true) /\
  differ_only latin1_db (same_upper latin1_db) (vanishes latin1_db)
    (lit "ab1234 0") (lit " AB12340") /\
  clean_cusip latin1_db no_float_repr (PyStr (lit "ab1234 0")) =
  clean_cusip latin1_db no_float_repr (PyStr (lit " AB12340")).
Proof.
  assert (D : differ_only latin1_db (same_upper latin1_db) (vanishes latin1_db)
                (lit "ab1234 0") (lit " AB12340")).
  { unfold differ_only.
    eapply rtc_l.
    { left. exact (edit_case latin1_db _ _ [] 97 65 (lit "b1234 0") eq_refl). }
    eapply rtc_l.
    { left. exact (edit_case latin1_db _ _ [65] 98 66 (lit "1234 0") eq_refl). }
    eapply rtc_l.
    { right. refine (edit_interior latin1_db _ _ (lit "AB1234") 32 (lit "0") _ _ eq_refl);
        discriminate. }
    eapply rtc_l.
    { left. exact (edit_leading latin1_db _ _ 32 (lit "AB12340") eq_refl). }
    apply rtc_refl. }
  split; [exact latin1_space_vanishes|]. split; [exact D|].
  exact (clean_cusip_insensitive latin1_db no_float_repr latin1_space_vanishes _ _ D).
Defined.

(** C8 (counterexample to the claim as stated). The sharp s (U+00DF) and
    the capital sharp s (U+1E9E) differ by case only: [str.lower] of the
    capital is the small one.  But [str.upper] turns the small one into
    ["SS"] and leaves the capital alone, which line 17 then removes:
    ["AB" + U+00DF + "1234"] gives ["ABSS1234"], and
    ["AB" + U+1E9E + "1234"] gives ["AB123400"].  The two strings differ in
    the case of one letter and in nothing else, whatever interior
    characters are taken to be ignored (here: the ASCII characters other
    than letters and digits). *)
Lemma clean_cusip_capital_sharp_s :
  differ_only latin1_db (case_variants latin1_db capitals_lower) ascii_other
    (lit "AB" ++ 223 :: lit "1234") (lit "AB" ++ 7838 :: lit "1234") /\
  clean_cusip latin1_db no_float_repr (PyStr (lit "AB" ++ 223 :: lit "1234"))
    = Some (lit "ABSS1234") /\
  clean_cusip latin1_db no_float_repr (PyStr (lit "AB" ++ 7838 :: lit "1234"))
    = Some (lit "AB123400") /\
  clean_cusip latin1_db no_float_repr (PyStr (lit "AB" ++ 223 :: lit "1234")) <>
  clean_cusip latin1_db no_float_repr (PyStr (lit "AB" ++ 7838 :: lit "1234")).
Proof.
  split; [|by vm_compute].
  apply rtc_once. left.
  apply (edit_case latin1_db _ _ (lit "AB") 223 7838 (lit "1234")).
  right. reflexivity.
Qed.

(** An interior character outside A-Z and 0-9 is not always ignored
    either: the upper-case form of the sharp s is ["SS"], and that of a
    small letter is its capital. *)
Example clean_cusip_sharp_s_inside :
  clean_cusip latin1_db no_float_repr (PyStr (lit "AB12345"))
    = Some (lit "AB123450") /\
  clean_cusip latin1_db no_float_repr (PyStr (lit "AB" ++ 223 :: lit "12345"))
    = Some (lit "ABSS1234") /\
  clean_cusip latin1_db no_float_repr (PyStr (lit "AB" ++ 120 :: lit "12345"))
    = Some (lit "ABX12345").
Proof. by vm_compute. Qed.

(** ** The filtering step *)

Lemma pd_isna_of_option o : pd_isna (of_option o) = true <-> o = None.
Proof. destruct o; simpl; split; done. Qed.

Lemma keep_first_ext subset seen seen' l :
  (forall k, k ∈ seen <-> k ∈ seen') ->
  keep_first subset seen l = keep_first subset seen' l.
Proof.
  revert seen seen'. induction l as [|r l IH]; intros seen seen' H; simpl; [done|].
  rewrite (bool_decide_ext _ _ (H _)). case_bool_decide.
  - by apply IH.
  - f_equal. apply IH. intros k. rewrite !elem_of_cons, H. done.
Qed.

Lemma keep_first_app subset seen xs ys :
  keep_first subset seen (xs ++ ys) =
  keep_first subset seen xs ++
  keep_first subset (map (fun r => map (cell r) subset) xs ++ seen) ys.
Proof.
  revert seen. induction xs as [|r xs IH]; intros seen; simpl; [done|].
  case_bool_decide as Hin.
  - rewrite IH. f_equal. apply keep_first_ext. intros k.
    rewrite elem_of_cons, !elem_of_app. split; [tauto|].
    intros [->|?]; tauto.
  - simpl. f_equal. rewrite IH. f_equal. apply keep_first_ext. intros k.
    rewrite elem_of_cons, !elem_of_app, elem_of_cons. tauto.
Qed.

Section Filtering.
Variable db : unicode_db.
Variable float_repr : spec_float -> pystr.

Lemma cell_with_cusip_clean r :
  cell (with_cusip_clean db float_repr r) (lit "cusip_clean")
  = of_option (canonical_of db float_repr r).
Proof. unfold cell, with_cusip_clean. simpl. apply lookup_total_insert_eq. Qed.

Lemma has_cusip_clean_with r :
  has_cusip_clean (with_cusip_clean db float_repr r)
  = bool_decide (canonical_of db float_repr r <> None).
Proof.
  unfold has_cusip_clean. cbn [forallb]. rewrite cell_with_cusip_clean.
  destruct (canonical_of db float_repr r); done.
Qed.

Lemma clean_frame_rows cols l :
  rows (clean_frame db float_repr (Frame cols l)) =
  keep_first [lit "cusip_clean"] []
    (List.filter has_cusip_clean (map (with_cusip_clean db float_repr) l)).
Proof.
  unfold clean_frame, drop_duplicates, dropna, set_column, series_apply.
  cbn [rows columns]. do 2 f_equal.
  induction l as [|r l IH]; [done|]. cbn [map zip_with]. by rewrite IH.
Qed.

Lemma seen_canonical c l :
  [PyStr c] ∈ map (fun r => map (cell r) [lit "cusip_clean"])
                (List.filter has_cusip_clean (map (with_cusip_clean db float_repr) l))
  <-> Some c ∈ map (canonical_of db float_repr) l.
Proof.
  induction l as [|r l IH]; cbn [map List.filter]; [by rewrite !elem_of_nil|].
  rewrite has_cusip_clean_with.
  destruct (canonical_of db float_repr r) as [c'|] eqn:E.
  - rewrite bool_decide_eq_true_2 by done. cbn [map].
    rewrite cell_with_cusip_clean, E, !elem_of_cons, IH. cbn [of_option].
    split; (intros [[=]|?]; [left; congruence|by right]).
  - rewrite bool_decide_eq_false_2 by (intros ?; done).
    rewrite elem_of_cons, IH. split; [by right|]. by intros [[=]|?].
Qed.

(** Reading the frame row by row: the row after [pre] is retained when
    its identifier has a canonical form that no row of [pre] has, and is
    left out otherwise; the retained rows come in the order of the
    frame. *)
Lemma clean_frame_snoc cols pre r :
  rows (clean_frame db float_repr (Frame cols (pre ++ [r]))) =
  rows (clean_frame db float_repr (Frame cols pre)) ++
  (if bool_decide (canonical_of db float_repr r <> None /\
                   canonical_of db float_repr r ∉ map (canonical_of db float_repr) pre)
   then [with_cusip_clean db float_repr r] else []).
Proof.
  rewrite !clean_frame_rows, map_app, List.filter_app, keep_first_app.
  f_equal. cbn [map List.filter]. rewrite has_cusip_clean_with, app_nil_r.
  destruct (canonical_of db float_repr r) as [c|] eqn:E.
  - rewrite bool_decide_eq_true_2 by done. cbn [keep_first map].
    rewrite cell_with_cusip_clean, E. cbn [of_option].
    rewrite (bool_decide_ext _ _ (seen_canonical c pre)).
    case_bool_decide as Hin.
    + rewrite bool_decide_eq_false_2; [done|]. by intros [_ ?].
    + by rewrite bool_decide_eq_true_2.
  - rewrite bool_decide_eq_false_2 by (intros ?; done). cbn [keep_first].
    rewrite bool_decide_eq_false_2; [done|]. by intros [? _].
Qed.

Lemma clean_frame_absent cols pre r post :
  canonical_of db float_repr r = None ->
  rows (clean_frame db float_repr (Frame cols (pre ++ r :: post))) =
  rows (clean_frame db float_repr (Frame cols (pre ++ post))).
Proof.
  intros E. rewrite !clean_frame_rows, !map_app, !List.filter_app.
  cbn [map List.filter]. rewrite has_cusip_clean_with, E.
  by rewrite bool_decide_eq_false_2 by (intros ?; done).
Qed.

(** C5. The filtering step removes the records whose identifier has no
    canonical form and, of the records with the same canonical form,
    keeps the first: read row by row, the frame keeps a row exactly when
    its canonical identifier is present and new, in the order of the
    input.  Of the records with identifiers ["AB12340"], ["ab1234 0"]
    and ["ZZ999999"], two remain: the first and the third. *)
Theorem filtering_keeps_first_occurrence :
  (forall cols, rows (clean_frame db float_repr (Frame cols [])) = []) /\
  (forall cols pre r,
     rows (clean_frame db float_repr (Frame cols (pre ++ [r]))) =
     rows (clean_frame db float_repr (Frame cols pre)) ++
     (if bool_decide (canonical_of db float_repr r <> None /\
                      canonical_of db float_repr r
                        ∉ map (canonical_of db float_repr) pre)
      then [with_cusip_clean db float_repr r] else [])) /\
  (let df := clean_frame db float_repr
               (frame_of_cusips [PyStr (lit "AB12340"); PyStr (lit "ab1234 0");
                                 PyStr (lit "ZZ999999")]) in
   length (rows df) = 2%nat /\
   map fst (rows df) = [0; 2]%nat /\
   map (fun r => cell r (lit "cusip_clean")) (rows df)
     = [PyStr (lit "AB123400"); PyStr (lit "ZZ999999")]).
Proof.
  split; [done|]. split; [apply clean_frame_snoc|].
  by vm_compute.
Qed.

(** C9. On a missing value ([None], NaN) and on the empty string,
    [clean_cusip] returns [None], and the filtering step leaves out a
    record with such an identifier: the result is that of the frame
    without the record. *)
Theorem missing_identifier_dropped (x : pyval) :
  pd_isna x = true \/ x = PyStr [] ->
  clean_cusip db float_repr x = None /\
  forall cols pre r post,
    cell r (lit "cusip") = x ->
    rows (clean_frame db float_repr (Frame cols (pre ++ r :: post))) =
    rows (clean_frame db float_repr (Frame cols (pre ++ post))).
Proof.
  intros Hx.
  assert (E : clean_cusip db float_repr x = None).
  { unfold clean_cusip. destruct Hx as [->| ->]; done. }
  split; [done|]. intros cols pre r post Hr.
  apply clean_frame_absent. unfold canonical_of. by rewrite Hr.
Qed.
End Filtering.

(** ** [clean_cusip_file] without the column *)

Section MissingColumn.
Variable db : unicode_db.
Variable float_repr : spec_float -> pystr.
Variable io : pandas_io.

(** C6. When the file is read and the frame has no column [cusip], the
    operation reports the missing column, returns [False] (the failure
    result, on which the script exits with status 1), and leaves the
    files as they were: nothing is written. *)
Theorem missing_column_fails (input_file output_file : pystr)
    (w : world io) (df : DataFrame) :
  read_csv io input_file (files w) = Ok df ->
  lit "cusip" ∉ columns df ->
  clean_cusip_file db float_repr io input_file output_file w =
    (Ok false,
     {| files := files w;
        stdout := stdout w ++ [lit "No 'cusip' column found in input file"] |}).
Proof.
  intros Hread Hcol.
  unfold clean_cusip_file, try_except, mbind, M_bind, do_read_csv.
  rewrite Hread. by rewrite bool_decide_eq_false_2.
Qed.
End MissingColumn.

(** ** The theorems at concrete inputs *)

(** C2 (witness): ["ab-1234"] has the cleaned form ["AB1234"]. *)
Lemma clean_cusip_pads_witness :
  (6 <= length (cleaned latin1_db (lit "ab-1234")) <= 8)%nat /\
  exists r, clean_cusip latin1_db no_float_repr (PyStr (lit "ab-1234")) = Some r /\
            length r = 8%nat /\
            take (length (cleaned latin1_db (lit "ab-1234"))) r
              = cleaned latin1_db (lit "ab-1234") /\
            r = cleaned latin1_db (lit "ab-1234")
                  ++ replicate (8 - length (cleaned latin1_db (lit "ab-1234"))) 48.
Proof.
  assert (H : (6 <= length (cleaned latin1_db (lit "ab-1234")) <= 8)%nat)
    by (vm_compute; lia).
  split; [exact H|].
  exact (clean_cusip_pads latin1_db no_float_repr (lit "ab-1234") H).
Defined.

(** C3 (witness): ["ab 12"] has the cleaned form ["AB12"]. *)
Lemma clean_cusip_too_short_witness :
  (length (cleaned latin1_db (lit "ab 12")) < 6)%nat /\
  clean_cusip latin1_db no_float_repr (PyStr (lit "ab 12")) = None.
Proof.
  assert (H : (length (cleaned latin1_db (lit "ab 12")) < 6)%nat)
    by (vm_compute; lia).
  split; [exact H|].
  exact (clean_cusip_too_short latin1_db no_float_repr (lit "ab 12") H).
Defined.

(** C4 (witness): a full CUSIP of 9 characters loses its check digit. *)
Lemma clean_cusip_truncates_witness :
  (9 <= length (cleaned latin1_db (lit "037833100")))%nat /\
  clean_cusip latin1_db no_float_repr (PyStr (lit "037833100"))
    = Some (take 8 (cleaned latin1_db (lit "037833100"))).
Proof.
  assert (H : (9 <= length (cleaned latin1_db (lit "037833100")))%nat)
    by (vm_compute; lia).
  split; [exact H|].
  exact (clean_cusip_truncates latin1_db no_float_repr (lit "037833100") H).
Defined.

(** C7 (witness): ["ab1234 0"] is cleaned to ["AB123400"], which is cleaned
    to itself. *)
Lemma clean_cusip_idempotent_witness :
  clean_cusip latin1_db no_float_repr (PyStr (lit "ab1234 0")) = Some (lit "AB123400") /\
  clean_cusip latin1_db no_float_repr (PyStr (lit "AB123400")) = Some (lit "AB123400").
Proof.
  assert (H : clean_cusip latin1_db no_float_repr (PyStr (lit "ab1234 0"))
              = Some (lit "AB123400")) by reflexivity.
  split; [exact H|].
  exact (clean_cusip_idempotent latin1_db no_float_repr _ _ H).
Defined.

(** C10 (witness): the integer 123456 is cleaned as the string ["123456"]. *)
Lemma clean_cusip_of_str_witness :
  pd_isna (PyInt 123456) = false /\ PyInt 123456 <> PyStr [] /\
  clean_cusip latin1_db no_float_repr (PyInt 123456)
    = clean_cusip latin1_db no_float_repr (PyStr (py_str no_float_repr (PyInt 123456))).
Proof.
  assert (H : PyInt 123456 <> PyStr []) by discriminate.
  split; [reflexivity|]. split; [exact H|].
  exact (clean_cusip_of_str latin1_db no_float_repr (PyInt 123456) eq_refl H).
Defined.

(** A float whose text is ["123456.0"] loses the point and is padded. *)
Example clean_cusip_float db float_repr f :
  pd_isna (PyFloat f) = false -> float_repr f = lit "123456.0" ->
  clean_cusip db float_repr (PyFloat f) = Some (lit "12345600").
Proof.
  intros Hna Hf. rewrite clean_cusip_via_str by done.
  cbn [py_str]. by rewrite Hf.
Qed.

(** C9 (witness): a row whose cell is NaN, between two other rows. *)
Lemma missing_identifier_dropped_witness :
  (pd_isna (PyFloat S754_nan) = true \/ PyFloat S754_nan = PyStr []) /\
  clean_cusip latin1_db no_float_repr (PyFloat S754_nan) = None /\
  rows (clean_frame latin1_db no_float_repr
          (frame_of_cusips [PyStr (lit "AB12340"); PyFloat S754_nan; PyStr (lit "ZZ999999")]))
  = rows (clean_frame latin1_db no_float_repr
            (Frame [lit "cusip"]
               [(0%nat, {[ lit "cusip" := PyStr (lit "AB12340") ]});
                (2%nat, {[ lit "cusip" := PyStr (lit "ZZ999999") ]})])).
Proof.
  assert (H : pd_isna (PyFloat S754_nan) = true \/ PyFloat S754_nan = PyStr [])
    by (left; reflexivity).
  split; [exact H|].
  destruct (missing_identifier_dropped latin1_db no_float_repr _ H) as [Hc Hrows].
  split; [exact Hc|].
  exact (Hrows [lit "cusip"]
           [(0%nat, {[ lit "cusip" := PyStr (lit "AB12340") ]})]
           (1%nat, {[ lit "cusip" := PyFloat S754_nan ]})
           [(2%nat, {[ lit "cusip" := PyStr (lit "ZZ999999") ]})]
           eq_refl).
Defined.

(** C6 (witness): a file whose frame has the single column [name]. *)
Lemma missing_column_fails_witness :
  let fs : filesystem mem_io := {[ lit "in.csv" := Frame [lit "name"] [] ]} in
  let w : world mem_io := {| files := fs; stdout := [] |} in
  read_csv mem_io (lit "in.csv") (files w) = Ok (Frame [lit "name"] []) /\
  (lit "cusip" ∉ columns (Frame [lit "name"] [])) /\
  clean_cusip_file latin1_db no_float_repr mem_io (lit "in.csv") (lit "out.csv") w =
    (Ok false,
     {| files := fs; stdout := [lit "No 'cusip' column found in input file"] |}).
Proof.
  intros fs w.
  assert (Hread : read_csv mem_io (lit "in.csv") (files w) = Ok (Frame [lit "name"] []))
    by (vm_compute; reflexivity).
  assert (Hcol : lit "cusip" ∉ columns (Frame [lit "name"] [])).
  { cbn [columns]. intros [=]%list_elem_of_singleton. }
  split; [exact Hread|]. split; [exact Hcol|].
  exact (missing_column_fails latin1_db no_float_repr mem_io
           (lit "in.csv") (lit "out.csv") w _ Hread Hcol).
Defined.

(** * Further properties of the cleaner *)

Lemma digits_in_class u : forallb in_A_Z0_9 (lit (NilEmpty.string_of_uint u)) = true.
Proof. induction u; simpl; try done. Qed.

Lemma str_of_pos_in_class p : forallb in_A_Z0_9 (str_of_int (Z.pos p)) = true.
Proof.
  unfold str_of_int. cbn [Z.to_int NilZero.string_of_int NilZero.string_of_uint].
  destruct (Pos.to_uint p); try apply (digits_in_class (_ _)); done.
Qed.

Section CleanerMore.
Variable db : unicode_db.
Variable float_repr : spec_float -> pystr.

(** X1. [clean_cusip] returns [None] exactly on a missing value and on a value
    whose string form has fewer than 6 characters of A-Z and 0-9 left once
    cleaned. *)
Theorem clean_cusip_none_iff (x : pyval) :
  clean_cusip db float_repr x = None <->
  pd_isna x = true \/ (length (cleaned db (py_str float_repr x)) < 6)%nat.
Proof.
  destruct (pd_isna x) eqn:Hna.
  { unfold clean_cusip. rewrite Hna. split; [by left|done]. }
  destruct (eq_empty_str x) eqn:He.
  { destruct x as [|[|]| | |]; try done. cbn. split; [right; lia|done]. }
  rewrite clean_cusip_via_str, clean_cusip_str by done.
  destruct (Nat.ltb_spec (length (cleaned db (py_str float_repr x))) 6).
  - split; [by right|done].
  - split; [done|]. intros [?|?]; [done|lia].
Qed.

(** X2. The cleaned form of an integer is the decimal text of its absolute
    value: the sign is lost. *)
Theorem cleaned_int (n : Z) :
  cleaned db (str_of_int n) = str_of_int (Z.abs n).
Proof.
  destruct n as [|p|p]; cbn [Z.abs].
  - done.
  - apply cleaned_in_class, str_of_pos_in_class.
  - pose proof (str_of_pos_in_class p) as Hd.
    change (str_of_int (Z.neg p)) with (45 :: str_of_int (Z.pos p)).
    unfold cleaned. rewrite strip_no_space.
    + unfold upper. cbn [map concat]. fold (upper db (str_of_int (Z.pos p))).
      rewrite (upper_in_class _ _ Hd).
      change (py_toupper db 45) with [45]. cbn.
      by apply re_sub_id.
    + cbn [forallb]. change (py_isspace db 45) with false. cbn.
      revert Hd. apply forallb_impl. intros c Hc.
      by rewrite (in_class_not_space _ _ Hc).
Qed.

(** X3. Only the first 8 characters of the cleaned form count: two strings
    whose cleaned forms have 8 characters or more and agree on the first 8
    have the same result, whatever follows (a check digit is not looked
    at). *)
Theorem clean_cusip_first_eight (s s' : pystr) :
  (8 <= length (cleaned db s))%nat -> (8 <= length (cleaned db s'))%nat ->
  take 8 (cleaned db s) = take 8 (cleaned db s') ->
  clean_cusip db float_repr (PyStr s) = clean_cusip db float_repr (PyStr s').
Proof.
  intros Hs Hs' Heq. rewrite !clean_cusip_str.
  assert (Hcase : forall c : pystr, (8 <= length c)%nat ->
            (if (length c <? 6)%nat then None
             else Some (if (length c =? 6)%nat then c ++ lit "00"
                        else if (length c =? 7)%nat then c ++ lit "0"
                        else if (length c =? 8)%nat then c else take 8 c))
            = Some (take 8 c)).
  { intros c Hc.
    destruct (Nat.ltb_spec (length c) 6); [lia|].
    destruct (Nat.eqb_spec (length c) 6); [lia|].
    destruct (Nat.eqb_spec (length c) 7); [lia|].
    destruct (Nat.eqb_spec (length c) 8); [|done].
    by rewrite take_ge by lia. }
  by rewrite !Hcase, Heq.
Qed.

(** X4. A short identifier and the same identifier with zeros added at the end
    have the same result: when the cleaned form of [s] has 6 characters or
    more and that of [s'] is it followed by zeros, 8 characters at most in
    all. *)
Theorem clean_cusip_zero_extension (s s' : pystr) (k : nat) :
  (6 <= length (cleaned db s))%nat -> (length (cleaned db s) + k <= 8)%nat ->
  cleaned db s' = cleaned db s ++ replicate k 48 ->
  clean_cusip db float_repr (PyStr s) = clean_cusip db float_repr (PyStr s').
Proof.
  intros Hlo Hhi Heq.
  assert (Hcase : forall c : pystr, (6 <= length c <= 8)%nat ->
            (if (length c <? 6)%nat then None
             else Some (if (length c =? 6)%nat then c ++ lit "00"
                        else if (length c =? 7)%nat then c ++ lit "0"
                        else if (length c =? 8)%nat then c else take 8 c))
            = Some (c ++ replicate (8 - length c) 48)).
  { intros c Hc.
    destruct (Nat.ltb_spec (length c) 6); [lia|].
    destruct (Nat.eqb_spec (length c) 6) as [->|]; [done|].
    destruct (Nat.eqb_spec (length c) 7) as [->|]; [done|].
    destruct (Nat.eqb_spec (length c) 8) as [->|]; [|lia].
    by rewrite app_nil_r. }
  rewrite !clean_cusip_str, !Hcase.
  - f_equal. rewrite Heq, length_app, length_replicate, <- app_assoc. f_equal.
    rewrite <- replicate_add. f_equal. lia.
  - rewrite Heq, length_app, length_replicate. lia.
  - lia.
Qed.

(** X5. The [strip()] of line 16 changes no result: with or without it the
    same characters are left after line 17, as long as white space has no
    letter or digit in its upper-case form. *)
Theorem strip_changes_nothing (s : pystr) :
  (forall c, py_isspace db c = true -> vanishes db c = true) ->
  cleaned db s = kept db s.
Proof. intros H. by apply kept_strip. Qed.
End CleanerMore.

(** * Further properties of the filtering step *)

Lemma list_filter_sublist {A} (p : A -> bool) l : List.filter p l `sublist_of` l.
Proof.
  induction l as [|x l IH]; simpl; [done|].
  destruct (p x); by constructor.
Qed.

Lemma list_filter_elem_of {A} (p : A -> bool) l x :
  x ∈ List.filter p l <-> x ∈ l /\ p x = true.
Proof. rewrite !list_elem_of_In. apply filter_In. Qed.

Lemma list_filter_all {A} (p : A -> bool) l :
  (forall x, x ∈ l -> p x = true) -> List.filter p l = l.
Proof.
  induction l as [|x l IH]; intros H; simpl; [done|].
  rewrite (H x) by left. f_equal. apply IH. intros y Hy. apply H. by right.
Qed.

Lemma keep_first_sublist subset seen l : keep_first subset seen l `sublist_of` l.
Proof.
  revert seen. induction l as [|r l IH]; intros seen; simpl; [done|].
  case_bool_decide; by constructor.
Qed.

Lemma keep_first_keys subset seen l k :
  k ∈ map (fun r => map (cell r) subset) (keep_first subset seen l) <->
  k ∈ map (fun r => map (cell r) subset) l /\ k ∉ seen.
Proof.
  revert seen. induction l as [|r l IH]; intros seen; simpl.
  { rewrite elem_of_nil. tauto. }
  case_bool_decide as Hin; simpl; rewrite ?elem_of_cons, IH, ?elem_of_cons.
  - split; [tauto|]. intros [[->|?] ?]; tauto.
  - destruct (decide (k = map (cell r) subset)) as [->|]; tauto.
Qed.

Lemma keep_first_NoDup subset seen l :
  NoDup (map (fun r => map (cell r) subset) (keep_first subset seen l)).
Proof.
  revert seen. induction l as [|r l IH]; intros seen; simpl; [constructor|].
  case_bool_decide; simpl; [apply IH|].
  apply NoDup_cons. split; [|apply IH].
  rewrite keep_first_keys, elem_of_cons. tauto.
Qed.

Lemma keep_first_id subset seen l :
  NoDup (map (fun r => map (cell r) subset) l) ->
  (forall r, r ∈ l -> map (cell r) subset ∉ seen) ->
  keep_first subset seen l = l.
Proof.
  revert seen. induction l as [|r l IH]; intros seen Hnd Hseen; simpl; [done|].
  simpl in Hnd. apply NoDup_cons in Hnd as [Hr Hnd].
  rewrite bool_decide_eq_false_2 by (apply Hseen; left).
  f_equal. apply IH; [done|]. intros r' Hr'. rewrite elem_of_cons.
  intros [Heq|?]; [|by apply (Hseen r'); [right|]].
  apply Hr. rewrite <- Heq. by apply (list_elem_of_fmap_2 (fun r => map (cell r) subset)).
Qed.

Section FilteringMore.
Variable db : unicode_db.
Variable float_repr : spec_float -> pystr.

Lemma with_cusip_clean_other r col :
  col <> lit "cusip_clean" ->
  cell (with_cusip_clean db float_repr r) col = cell r col.
Proof.
  intros Hne. unfold cell, with_cusip_clean. simpl.
  by apply lookup_total_insert_ne.
Qed.

Lemma with_cusip_clean_twice r :
  with_cusip_clean db float_repr (with_cusip_clean db float_repr r)
  = with_cusip_clean db float_repr r.
Proof.
  unfold with_cusip_clean at 1. unfold canonical_of.
  rewrite with_cusip_clean_other by done.
  unfold with_cusip_clean, canonical_of. simpl. by rewrite insert_insert_eq.
Qed.

Lemma clean_frame_rows' df :
  rows (clean_frame db float_repr df) =
  keep_first [lit "cusip_clean"] []
    (List.filter has_cusip_clean (map (with_cusip_clean db float_repr) (rows df))).
Proof. destruct df. apply clean_frame_rows. Qed.

(** A retained row is an input row with its canonical identifier, which
    it has, in [cusip_clean]. *)
Lemma clean_frame_row r' df :
  r' ∈ rows (clean_frame db float_repr df) ->
  exists r c, r ∈ rows df /\ r' = with_cusip_clean db float_repr r /\
              canonical_of db float_repr r = Some c.
Proof.
  rewrite clean_frame_rows'. intros Hin.
  eapply elem_of_sublist in Hin; [|apply keep_first_sublist].
  apply list_filter_elem_of in Hin as [Hin Hhas].
  apply list_elem_of_fmap in Hin as (r & -> & Hr).
  rewrite has_cusip_clean_with in Hhas. apply bool_decide_eq_true_1 in Hhas.
  destruct (canonical_of db float_repr r) as [c|] eqn:E; [|done].
  by exists r, c.
Qed.

(** X7. The retained records come in the order of the input, each with the
    label it had and with every cell but [cusip_clean] as it was. *)
Theorem clean_frame_keeps_order_and_cells (df : DataFrame) :
  rows (clean_frame db float_repr df)
    `sublist_of` map (with_cusip_clean db float_repr) (rows df) /\
  forall r col, (with_cusip_clean db float_repr r).1 = r.1 /\
                (col <> lit "cusip_clean" ->
                 cell (with_cusip_clean db float_repr r) col = cell r col).
Proof.
  split.
  - rewrite clean_frame_rows'.
    transitivity (List.filter has_cusip_clean
                    (map (with_cusip_clean db float_repr) (rows df))).
    + apply keep_first_sublist.
    + apply list_filter_sublist.
  - intros r col. split; [done|]. apply with_cusip_clean_other.
Qed.

(** X8. Every retained record has in [cusip_clean] the canonical form of its
    own [cusip], 8 characters of A-Z and 0-9, and no two retained records
    have the same one. *)
Theorem clean_frame_unique_canonical (df : DataFrame) :
  Forall (fun r => exists c, cell r (lit "cusip_clean") = PyStr c /\
                             clean_cusip db float_repr (cell r (lit "cusip")) = Some c /\
                             is_canonical c = true)
    (rows (clean_frame db float_repr df)) /\
  NoDup (map (fun r => cell r (lit "cusip_clean")) (rows (clean_frame db float_repr df))).
Proof.
  split.
  - apply Forall_forall. intros r' (r & c & _ & -> & Hc)%clean_frame_row.
    exists c. rewrite cell_with_cusip_clean, Hc, with_cusip_clean_other by done.
    split; [done|]. split; [done|]. by apply clean_cusip_result in Hc.
  - rewrite clean_frame_rows'.
    apply (NoDup_fmap_1 (fun v => [v])). rewrite <- list_fmap_compose.
    apply (keep_first_NoDup [lit "cusip_clean"]).
Qed.

(** X9. No identifier is lost and none is made up: the canonical identifiers
    in the result are those of the input records. *)
Theorem clean_frame_same_identifiers (df : DataFrame) (c : pystr) :
  PyStr c ∈ map (fun r => cell r (lit "cusip_clean")) (rows (clean_frame db float_repr df))
  <-> Some c ∈ map (canonical_of db float_repr) (rows df).
Proof.
  rewrite clean_frame_rows'.
  set (R := keep_first _ _ _).
  transitivity ([PyStr c] ∈ map (fun r => map (cell r) [lit "cusip_clean"]) R).
  { split; intros (r & Hr & Hin)%list_elem_of_fmap;
      apply list_elem_of_fmap; exists r; (split; [|done]).
    - cbn [map]. by rewrite <- Hr.
    - cbn [map] in Hr. by injection Hr. }
  unfold R. rewrite keep_first_keys, seen_canonical, elem_of_nil. tauto.
Qed.
Lemma map_fixed {A} (f : A -> A) l : (forall x, x ∈ l -> f x = x) -> map f l = l.
Proof.
  induction l as [|x l IH]; intros H; simpl; [done|].
  rewrite (H x) by left. f_equal. apply IH. intros y Hy. apply H. by right.
Qed.

Lemma clean_frame_columns df :
  columns (clean_frame db float_repr df) =
  if bool_decide (lit "cusip_clean" ∈ columns df) then columns df
  else columns df ++ [lit "cusip_clean"].
Proof. done. Qed.


(** X10. The number of retained records, which line 45 prints, is the number
    of distinct canonical identifiers of the input records. *)
Theorem clean_frame_count (df : DataFrame) :
  length (rows (clean_frame db float_repr df)) =
  size (list_to_set (omap (canonical_of db float_repr) (rows df)) : gset pystr).
Proof.
  destruct df as [cols l]. cbn [rows].
  induction l as [|r pre IH] using rev_ind.
  { by rewrite clean_frame_rows. }
  rewrite clean_frame_snoc, length_app, IH, omap_app, list_to_set_app_L.
  cbn [omap list_omap].
  destruct (canonical_of db float_repr r) as [c|] eqn:E.
  - assert (Hmem : Some c ∈ map (canonical_of db float_repr) pre <->
                   c ∈ omap (canonical_of db float_repr) pre).
    { rewrite list_elem_of_omap. split.
      - intros (x & Hx & Hin)%list_elem_of_fmap. by exists x.
      - intros (x & Hin & Hx). apply list_elem_of_fmap. by exists x. }
    rewrite list_to_set_cons, list_to_set_nil, union_empty_r_L.
    case_bool_decide as Hnew.
    + rewrite size_union, size_singleton; [done|].
      intros y Hy ->%elem_of_singleton.
      apply elem_of_list_to_set in Hy. apply Hnew, Hmem, Hy.
    + rewrite (union_comm_L _ {[c]}), (subseteq_union_1_L {[c]}); [simpl; lia|].
      intros y ->%elem_of_singleton.
      apply elem_of_list_to_set, Hmem.
      destruct (decide (Some c ∈ map (canonical_of db float_repr) pre)); [done|].
      by destruct Hnew.
  - rewrite bool_decide_eq_false_2 by (by intros [? _]).
    rewrite list_to_set_nil, union_empty_r_L. simpl. lia.
Qed.

(** X11. Filtering a filtered frame changes nothing. *)
Theorem clean_frame_idempotent (df : DataFrame) :
  clean_frame db float_repr (clean_frame db float_repr df)
  = clean_frame db float_repr df.
Proof.
  assert (Heq : forall a b, columns a = columns b -> rows a = rows b -> a = b).
  { intros [] []. simpl. by intros -> ->. }
  apply Heq.
  - rewrite (clean_frame_columns (clean_frame db float_repr df)).
    rewrite bool_decide_eq_true_2; [done|].
    rewrite clean_frame_columns. case_bool_decide; [done|].
    apply elem_of_app. right. left.
  - rewrite (clean_frame_rows' (clean_frame db float_repr df)).
    rewrite map_fixed, list_filter_all, keep_first_id; [done| | | |].
    + pose proof (keep_first_NoDup [lit "cusip_clean"] []
                    (List.filter has_cusip_clean
                       (map (with_cusip_clean db float_repr) (rows df)))) as Hnd.
      by rewrite <- clean_frame_rows' in Hnd.
    + intros r _. apply not_elem_of_nil.
    + intros r' (r & c & _ & -> & Hc)%clean_frame_row.
      rewrite has_cusip_clean_with, Hc. done.
    + intros r' (r & c & _ & -> & Hc)%clean_frame_row.
      apply with_cusip_clean_twice.
Qed.
End FilteringMore.

(** * Further properties of [clean_cusip_file] and of the script *)



Section FileMore.
Variable db : unicode_db.
Variable float_repr : spec_float -> pystr.
Variable io : pandas_io.









(** X17. Run with a number of arguments other than two, the script prints the
    usage line and ends with status 1; it reads and writes no file. *)
Theorem main_usage (argv : list pystr) (w : world io) :
  length argv <> 3%nat ->
  main db float_repr io argv w =
    (1%Z,
     {| files := files w;
        stdout := stdout w ++
          [lit "Usage: python cusip_cleaner.py <input_file> <output_file>"] |}).
Proof. intros H. unfold main. by rewrite bool_decide_eq_true_2. Qed.

End FileMore.

(** ** The further properties at concrete inputs *)

(** X3 at a concrete input. *)
Lemma clean_cusip_first_eight_witness :
  clean_cusip latin1_db no_float_repr (PyStr (lit "037833100"))
  = clean_cusip latin1_db no_float_repr (PyStr (lit "03783310-X")).
Proof.
  apply clean_cusip_first_eight; [vm_compute; lia|vm_compute; lia|reflexivity].
Defined.

(** X4 at a concrete input. *)
Lemma clean_cusip_zero_extension_witness :
  clean_cusip latin1_db no_float_repr (PyStr (lit "ab1234"))
  = clean_cusip latin1_db no_float_repr (PyStr (lit "AB1234-00")).
Proof.
  apply (clean_cusip_zero_extension latin1_db no_float_repr _ _ 2);
    [vm_compute; lia|vm_compute; lia|reflexivity].
Defined.

(** X5 at a concrete input. *)
Lemma strip_changes_nothing_witness :
  cleaned latin1_db (lit "  ab 12 ") = kept latin1_db (lit "  ab 12 ").
Proof. exact (strip_changes_nothing latin1_db _ latin1_space_vanishes). Defined.








(** X17 at a concrete input. *)
Lemma main_usage_witness :
  let w : world mem_io := @World mem_io (∅ : gmap pystr DataFrame) [] in
  main latin1_db no_float_repr mem_io [lit "cusip_cleaner.py"] w =
    (1%Z,
     @World mem_io (∅ : gmap pystr DataFrame)
       [lit "Usage: python cusip_cleaner.py <input_file> <output_file>"]).
Proof.
  intros w.
  assert (H : length [lit "cusip_cleaner.py"] <> 3%nat) by discriminate.
  exact (main_usage latin1_db no_float_repr mem_io _ w H).
Defined.

(** ** ASCII identifiers *)

Section Ascii.
Variable db : unicode_db.

(** The letters and digits of an ASCII string, in upper case. *)
Lemma kept_ascii s :
  forallb is_ascii s = true ->
  kept db s = List.filter in_A_Z0_9 (map ascii_toupper s).
Proof.
  unfold kept, upper, re_sub_not_A_Z0_9.
  induction s as [|c s IH]; simpl; [done|].
  intros [Hc Hs]%andb_prop. unfold py_toupper at 1. rewrite Hc. simpl.
  by rewrite IH.
Qed.

Lemma kept_ascii_spaces ws :
  forallb is_ascii ws = true -> forallb (py_isspace db) ws = true ->
  kept db ws = [].
Proof.
  induction ws as [|w ws IH]; simpl; [done|].
  intros [Hw Hws]%andb_prop [Hsp Hsps]%andb_prop.
  rewrite kept_cons, IH, app_nil_r by done.
  unfold py_isspace in Hsp. unfold py_toupper. rewrite Hw in *. simpl.
  unfold ascii_isspace in Hsp. unfold in_A_Z0_9, ascii_toupper. cmp_cases.
Qed.

(** X6. For a string of ASCII characters the cleaned form is its letters and
    digits, in order, the letters in upper case; the Unicode tables of the
    interpreter play no part. *)
Theorem cleaned_ascii (s : pystr) :
  forallb is_ascii s = true ->
  cleaned db s = List.filter in_A_Z0_9 (map ascii_toupper s).
Proof.
  intros Hs. rewrite <- kept_ascii by done. unfold cleaned, strip.
  fold (kept db (rstrip db (lstrip db s))).
  destruct (lstrip_split db s) as (ws & Hsplit & Hws).
  destruct (rstrip_split db (lstrip db s)) as (ws' & Hsplit' & Hws').
  rewrite Hsplit, forallb_app in Hs. apply andb_prop in Hs as [Ha Hl].
  rewrite Hsplit', forallb_app in Hl. apply andb_prop in Hl as [_ Ha'].
  rewrite Hsplit at 2. rewrite Hsplit' at 2.
  rewrite !kept_app, (kept_ascii_spaces ws), (kept_ascii_spaces ws') by done.
  by rewrite app_nil_r.
Qed.
End Ascii.

(** X6 at a concrete input. *)
Lemma cleaned_ascii_witness :
  cleaned latin1_db (lit " ab-12 34.x ") = lit "AB1234X".
Proof.
  exact (cleaned_ascii latin1_db (lit " ab-12 34.x ") eq_refl).
Defined.
